(** * excel-to-text: the converter and the session state of
    [src/components/TheExcelToText.vue]

    The component reads an uploaded spreadsheet with the [xlsx] library,
    flattens every sheet to tab-separated text and keeps four reactive fields
    ([convertedText], [isProcessing], [fileName], [errorMessage]) that the
    copy, download and clear buttons work on.

    The [xlsx] library and the number-to-string conversion of the JS engine
    are collaborators of the component: they are taken as an interface
    ([Platform]) and every theorem holds for each implementation of it.  What
    the browser answers (how a [FileReader] finishes, whether a clipboard write
    succeeds) is an input of the operation it answers. *)

From Stdlib.Strings Require Import Byte Ascii String.
From Stdlib Require Import ZArith DecimalString.
From stdpp Require Import base strings list gmap.

Open Scope string_scope.

(** ** JS strings *)

Definition LF : string := String "010"%char EmptyString.
Definition TAB : string := String "009"%char EmptyString.

(** [Array.prototype.join] on an array of strings. *)
Fixpoint join (sep : string) (parts : list string) : string :=
  match parts with
  | [] => EmptyString
  | [p] => p
  | p :: rest => p +:+ sep +:+ join sep rest
  end.

(** ** The collaborators *)

(** A value caught by [catch]: an [Error] object with its [message], or any
    other thrown value. *)
Inductive Thrown : Type :=
  | JSError (message : string)
  | NonError.

(** How a promise settles. *)
Inductive Settled (A : Type) : Type :=
  | Fulfilled (value : A)
  | Rejected (reason : Thrown).
Arguments Fulfilled {A} value.
Arguments Rejected {A} reason.

Section Cells.
Context {Number : Type}.

(** A cell of the [any[][]] grid that [sheet_to_json] returns with
    [header: 1]: rows are sparse arrays, so a slot can be a hole. *)
Inductive Cell : Type :=
  | CHole
  | CUndefined
  | CNull
  | CString (s : string)
  | CNumber (n : Number)
  | CBoolean (b : bool).
End Cells.
Arguments Cell Number : clear implicits.

(** The workbook object: [SheetNames] in declared order and the [Sheets]
    object that maps a name to its worksheet. *)
Record WorkBook (WS : Type) : Type := {
  SheetNames : list string;
  Sheets : gmap string WS;
}.
Arguments SheetNames {WS} _.
Arguments Sheets {WS} _.

Class Platform : Type := {
  (** JS numbers and [String(n)] on them. *)
  Number : Type;
  number_to_string : Number → string;
  (** A worksheet object of the library. *)
  WorkSheet : Type;
  (** [XLSX.utils.sheet_to_json(worksheet, { header: 1 })], taken as never
      throwing; the argument is [None] when [workbook.Sheets] has no entry
      under the name. *)
  sheet_to_json : option WorkSheet → list (list (Cell Number));
  (** [XLSX.read(data, { type: 'array' })] returns a workbook or throws. *)
  XLSX_read : list byte → Thrown + WorkBook WorkSheet;
}.

(** How the [FileReader] finishes on a file: [onerror] fires, or [onload]
    fires with [e.target?.result], which is an [ArrayBuffer] or nothing. *)
Inductive ReadOutcome : Type :=
  | ReadFailed
  | Loaded (result : option (list byte)).

Record File : Type := {
  file_name : string;
  readAsArrayBuffer : ReadOutcome;
}.

(** ** The converter *)

Section Converter.
Context `{P : Platform}.

#[local] Abbreviation Row := (list (Cell Number)).

(** [String(cell)]. *)
Definition JS_String (cell : Cell Number) : string :=
  match cell with
  | CHole | CUndefined => "undefined"
  | CNull => "null"
  | CString s => s
  | CNumber n => number_to_string n
  | CBoolean true => "true"
  | CBoolean false => "false"
  end.

(** [Array.prototype.some]: the callback is not called on holes. *)
Definition Array_some (p : Cell Number → bool) (row : Row) : bool :=
  existsb (λ cell, match cell with CHole => false | _ => p cell end) row.

(** [Array.prototype.map]: holes stay holes ([None]). *)
Definition Array_map (f : Cell Number → string) (row : Row)
  : list (option string) :=
  map (λ cell, match cell with CHole => None | _ => Some (f cell) end) row.

(** [Array.prototype.join]: a hole is rendered as the empty string. *)
Definition Array_join (sep : string) (parts : list (option string)) : string :=
  join sep (map (default EmptyString) parts).

(** [cell => cell !== undefined && cell !== null && cell !== ''] *)
Definition hasContent (cell : Cell Number) : bool :=
  match cell with
  | CHole | CUndefined => false
  | CNull => false
  | CString s => negb (String.eqb s "")
  | CNumber _ | CBoolean _ => true
  end.

(** The callback of [row.map]. *)
Definition cellText (cell : Cell Number) : string :=
  match cell with
  | CHole | CUndefined | CNull => ""
  | _ => JS_String cell
  end.

Definition rowLine (row : Row) : string :=
  Array_join TAB (Array_map cellText row).

(** The body of [jsonData.forEach], on the accumulator [text]. *)
Definition appendRow (text : string) (row : Row) : string :=
  if Array_some hasContent row
  then (text +:+ rowLine row) +:+ LF
  else text.

Definition sheetHeader (sheetName : string) : string :=
  "===== " +:+ sheetName +:+ " =====".

(** The body of [workbook.SheetNames.forEach]. *)
Definition appendSheet (workbook : WorkBook WorkSheet)
    (text : string) (sheetName : string) : string :=
  let worksheet := Sheets workbook !! sheetName in
  let jsonData := sheet_to_json worksheet in
  let text := text +:+ (sheetHeader sheetName +:+ LF) in
  let text := fold_left appendRow jsonData text in
  text +:+ LF.

(** [onload] from [let text = ''] to [resolve(text)]. *)
Definition workbookText (workbook : WorkBook WorkSheet) : string :=
  fold_left (appendSheet workbook) (SheetNames workbook) "".

Definition convertExcelToText (file : File) : Settled string :=
  match readAsArrayBuffer file with
  | ReadFailed => Rejected (JSError "读取文件时出错")
  | Loaded None => Rejected (JSError "无法读取文件数据")
  | Loaded (Some data) =>
      match XLSX_read data with
      | inl error => Rejected error
      | inr workbook => Fulfilled (workbookText workbook)
      end
  end.
End Converter.

(** ** The session state *)

(** The refs of the component; [fileInput] is the template ref of the
    [<input type=file>], holding the input's [value] once it is mounted. *)
Record Component : Type := {
  fileInput : option string;
  convertedText : string;
  isProcessing : bool;
  fileName : string;
  errorMessage : string;
}.

Definition initial : Component :=
  {| fileInput := Some ""; convertedText := ""; isProcessing := false;
     fileName := ""; errorMessage := "" |}.

Definition set_fileInput_value (v : string) (c : Component) : Component :=
  {| fileInput := match fileInput c with Some _ => Some v | None => None end;
     convertedText := convertedText c; isProcessing := isProcessing c;
     fileName := fileName c; errorMessage := errorMessage c |}.

Definition set_convertedText (v : string) (c : Component) : Component :=
  {| fileInput := fileInput c; convertedText := v;
     isProcessing := isProcessing c; fileName := fileName c;
     errorMessage := errorMessage c |}.

Definition set_isProcessing (v : bool) (c : Component) : Component :=
  {| fileInput := fileInput c; convertedText := convertedText c;
     isProcessing := v; fileName := fileName c;
     errorMessage := errorMessage c |}.

Definition set_fileName (v : string) (c : Component) : Component :=
  {| fileInput := fileInput c; convertedText := convertedText c;
     isProcessing := isProcessing c; fileName := v;
     errorMessage := errorMessage c |}.

Definition set_errorMessage (v : string) (c : Component) : Component :=
  {| fileInput := fileInput c; convertedText := convertedText c;
     isProcessing := isProcessing c; fileName := fileName c;
     errorMessage := v |}.

(** JS truthiness of a string: [!s] holds exactly of the empty string. *)
Definition truthy (s : string) : bool := negb (String.eqb s "").

(** *** handleFileUpload *)

(** [error instanceof Error ? error.message : '处理文件时出错'] *)
Definition errorText (error : Thrown) : string :=
  match error with
  | JSError message => message
  | NonError => "处理文件时出错"
  end.

(** From the two assignments before [try] to the [await]. *)
Definition handleFileUpload_before_await (file : File) (c : Component)
  : Component :=
  set_isProcessing true
    (set_errorMessage "" (set_fileName (file_name file) c)).

(** From the [await] on: the rest of [try], or [catch], then [finally]. *)
Definition handleFileUpload_after_await (settled : Settled string)
    (c : Component) : Component :=
  set_isProcessing false
    match settled with
    | Fulfilled text => set_fileInput_value "" (set_convertedText text c)
    | Rejected error =>
        set_convertedText "" (set_errorMessage (errorText error) c)
    end.

Section Session.
Context `{P : Platform}.

(** The handler run without another handler in between; [files] is
    [event.target.files]. *)
Definition handleFileUpload (files : option (list File)) (c : Component)
  : Component :=
  match files with
  | None | Some [] => c
  | Some (file :: _) =>
      handleFileUpload_after_await (convertExcelToText file)
        (handleFileUpload_before_await file c)
  end.

End Session.

(** *** downloadTextFile *)

(** [[^/.]] *)
Definition notSlashDot (ch : ascii) : bool :=
  negb (Ascii.eqb ch "/") && negb (Ascii.eqb ch ".").

(** [/\.[^/.]+$/] matches the whole of [s]. *)
Definition isExtension (s : string) : bool :=
  match s with
  | EmptyString => false
  | String ch rest =>
      Ascii.eqb ch "." && truthy rest
      && forallb notSlashDot (list_ascii_of_string rest)
  end.

(** [s.replace(/\.[^/.]+$/, '')]: the leftmost match, which reaches the end
    of [s], is removed. *)
Fixpoint removeExtension (s : string) : string :=
  if isExtension s then EmptyString
  else match s with
       | EmptyString => EmptyString
       | String ch rest => String ch (removeExtension rest)
       end.

(** What the click on the temporary anchor hands to the browser: the
    anchor's [download] attribute and the blob behind its [href]. *)
Record Download : Type := {
  download : string;
  blob : string;
  blob_type : string;
}.

Definition downloadTextFile (c : Component) : Component * option Download :=
  if negb (truthy (convertedText c)) then (c, None)
  else
    let baseName := removeExtension (fileName c) in
    (c, Some {| download := baseName +:+ ".txt";
                blob := convertedText c;
                blob_type := "text/plain;charset=utf-8" |}).

(** *** copyToClipboard *)

(** [writeText_ok] tells whether [navigator.clipboard.writeText] went
    through; the second component is the text handed to the clipboard. *)
Definition copyToClipboard (writeText_ok : bool) (c : Component)
  : Component * option string :=
  if negb (truthy (convertedText c)) then (c, None)
  else if writeText_ok then (c, Some (convertedText c))
  else (set_errorMessage "复制到剪贴板失败" c, None).

(** *** clearResult *)

Definition clearResult (c : Component) : Component :=
  set_errorMessage "" (set_fileName "" (set_convertedText "" c)).

(** ** Sequences of user actions *)

Inductive Action : Type :=
  | SelectFile (files : option (list File))
  | Copy (writeText_ok : bool)
  | DownloadText
  | Clear.

Section Run.
Context `{P : Platform}.

Definition step (c : Component) (a : Action) : Component :=
  match a with
  | SelectFile files => handleFileUpload files c
  | Copy ok => fst (copyToClipboard ok c)
  | DownloadText => fst (downloadTextFile c)
  | Clear => clearResult c
  end.

Definition run (c : Component) (actions : list Action) : Component :=
  fold_left step actions c.

End Run.

(** ** Lines of a text *)

(** [s.split('\n')] *)
Fixpoint lines (s : string) : list string :=
  match s with
  | EmptyString => [EmptyString]
  | String ch rest =>
      if Ascii.eqb ch "010" then EmptyString :: lines rest
      else match lines rest with
           | l :: ls => String ch l :: ls
           | [] => [String ch EmptyString]
           end
  end.

Fixpoint hasLF (s : string) : bool :=
  match s with
  | EmptyString => false
  | String ch rest => Ascii.eqb ch "010" || hasLF rest
  end.

(** [s.startsWith(p)] and [s.endsWith(p)] *)
Fixpoint startsWith (p s : string) : bool :=
  match p, s with
  | EmptyString, _ => true
  | String _ _, EmptyString => false
  | String a p', String b s' => Ascii.eqb a b && startsWith p' s'
  end.

Fixpoint endsWith (p s : string) : bool :=
  String.eqb s p
  || match s with
     | EmptyString => false
     | String _ rest => endsWith p rest
     end.

(** A line of the shape of a sheet header, [===== <text> =====]. *)
Definition isHeaderLine (l : string) : bool :=
  (12 <=? String.length l)%nat
  && startsWith "===== " l && endsWith " =====" l.

(** ** A small implementation of the collaborators

    Used to run the component on concrete inputs: numbers are integers
    printed in decimal, a worksheet is its own grid, and a non-empty file is
    read as one sheet [Sheet1] with its content in a single cell. *)

Definition demo_number_to_string (n : Z) : string :=
  DecimalString.NilZero.string_of_int (Z.to_int n).

Definition demo_sheet_to_json (worksheet : option (list (list (Cell Z))))
  : list (list (Cell Z)) :=
  default [] worksheet.

Definition demo_read (data : list byte)
  : Thrown + WorkBook (list (list (Cell Z))) :=
  match data with
  | [] => inl (JSError "File is empty")
  | _ => inr {| SheetNames := ["Sheet1"];
                Sheets := {[ "Sheet1" :=
                  [[CString (string_of_list_byte data)]] ]} |}
  end.

Definition demo : Platform :=
  {| Number := Z;
     number_to_string := demo_number_to_string;
     WorkSheet := list (list (Cell Z));
     sheet_to_json := demo_sheet_to_json;
     XLSX_read := demo_read |}.

(** ** The converter as the specification words it

    Each sheet contributes a block: its header line, one line per retained
    row, and a blank line.  [spec_workbookText] is compared with
    [workbookText] below. *)

Fixpoint concatText (parts : list string) : string :=
  match parts with
  | [] => EmptyString
  | p :: rest => p +:+ concatText rest
  end.

Section Specification.
Context `{P : Platform}.

#[local] Abbreviation Row := (list (Cell Number)).

(** An absent or null cell. *)
Definition isAbsent (cell : Cell Number) : bool :=
  match cell with
  | CHole | CUndefined | CNull => true
  | _ => false
  end.

(** Absent, null or the empty string. *)
Definition emptyCell (cell : Cell Number) : Prop :=
  cell = CHole ∨ cell = CUndefined ∨ cell = CNull ∨ cell = CString "".

Definition isEmptyCell (cell : Cell Number) : bool :=
  match cell with
  | CString s => String.eqb s ""
  | _ => isAbsent cell
  end.

Definition retained (row : Row) : bool := negb (forallb isEmptyCell row).

Definition renderedCell (cell : Cell Number) : string :=
  if isAbsent cell then "" else JS_String cell.

(** The cells in column order, separated by tabs. *)
Definition rowText (row : Row) : string := join TAB (map renderedCell row).

Definition sheetRows (workbook : WorkBook WorkSheet) (sheetName : string)
  : list Row :=
  sheet_to_json (Sheets workbook !! sheetName).

Definition sheetBlock (workbook : WorkBook WorkSheet) (sheetName : string)
  : string :=
  sheetHeader sheetName +:+ LF
  +:+ concatText
        (map (λ row, rowText row +:+ LF)
           (List.filter retained (sheetRows workbook sheetName)))
  +:+ LF.

Definition spec_workbookText (workbook : WorkBook WorkSheet) : string :=
  concatText (map (sheetBlock workbook) (SheetNames workbook)).

(** The lines of a text that have the shape of a sheet header. *)
Definition headerLines (text : string) : list string :=
  List.filter isHeaderLine (lines text).

(** No line break in a sheet name or in a retained row, and no retained row
    that reads like a sheet header. *)
Definition plainRow (row : Row) : bool :=
  negb (retained row)
  || (negb (hasLF (rowText row)) && negb (isHeaderLine (rowText row))).

Definition plainSheet (workbook : WorkBook WorkSheet) (sheetName : string)
  : bool :=
  negb (hasLF sheetName) && forallb plainRow (sheetRows workbook sheetName).

Definition plainWorkbook (workbook : WorkBook WorkSheet) : bool :=
  forallb (plainSheet workbook) (SheetNames workbook).

End Specification.

(** ** Example inputs *)

(** The workbook [Sheet1] with rows [[["a","b"],[],["", null]]]. *)
Definition sheet1_workbook : WorkBook (list (list (Cell Z))) :=
  {| SheetNames := ["Sheet1"];
     Sheets := {[ "Sheet1" :=
       [[CString "a"; CString "b"]; []; [CString ""; CNull]] ]} |}.

(** Two sheets; the second has a numeric cell, a hole and a single space. *)
Definition two_sheets_workbook : WorkBook (list (list (Cell Z))) :=
  {| SheetNames := ["Data"; "Notes"];
     Sheets := {[ "Data" := [[CString "x"; CNumber 42%Z; CBoolean true]];
                  "Notes" := [[CHole; CString " "]; [CUndefined]] ]} |}.

(** One sheet [A] whose only cell holds the text of a header. *)
Definition mimic_workbook : WorkBook (list (list (Cell Z))) :=
  {| SheetNames := ["A"];
     Sheets := {[ "A" := [[CString "===== A ====="]] ]} |}.

Definition readable_file : File :=
  {| file_name := "Report.xlsx"; readAsArrayBuffer := Loaded (Some [x50; x4b]) |}.

Definition renamed_file : File :=
  {| file_name := "Copy of Report.xlsx";
     readAsArrayBuffer := Loaded (Some [x50; x4b]) |}.

Definition empty_file : File :=
  {| file_name := "empty.xlsx"; readAsArrayBuffer := Loaded (Some []) |}.

Definition unreadable_file : File :=
  {| file_name := "gone.xlsx"; readAsArrayBuffer := ReadFailed |}.

(** A session that shows an earlier result. *)
Definition showing_result : Component :=
  {| fileInput := Some ""; convertedText := "A" +:+ TAB +:+ "B" +:+ LF;
     isProcessing := false; fileName := "Report.xlsx"; errorMessage := "" |}.

(** A session that shows both a result and an error. *)
Definition showing_both : Component :=
  {| fileInput := Some ""; convertedText := "A" +:+ TAB +:+ "B" +:+ LF;
     isProcessing := false; fileName := "Report.xlsx";
     errorMessage := "复制到剪贴板失败" |}.

(** ** Predicates on sessions *)

(** At most one of the text and the error is non-empty. *)
Definition exclusive (c : Component) : Prop :=
  convertedText c = "" ∨ errorMessage c = "".

(** Whenever a result and an error are shown together, the error is the one
    of a failed copy. *)
Definition exclusiveUpToCopy (c : Component) : Prop :=
  exclusive c ∨ errorMessage c = "复制到剪贴板失败".

(** The actions after which the text and the error are set afresh: a file
    selection that runs a conversion, and a clear. *)
Definition startsAfresh (a : Action) : Prop :=
  a = Clear ∨ ∃ file others, a = SelectFile (Some (file :: others)).

(** ** Fields of a line *)

(** [s.split(sep)] for a separator of one character. *)
Fixpoint splitOn (sep : ascii) (s : string) : list string :=
  match s with
  | EmptyString => [EmptyString]
  | String ch rest =>
      if Ascii.eqb ch sep then EmptyString :: splitOn sep rest
      else match splitOn sep rest with
           | l :: ls => String ch l :: ls
           | [] => [String ch EmptyString]
           end
  end.

(** [s.includes(ch)] *)
Fixpoint includes (ch : ascii) (s : string) : bool :=
  match s with
  | EmptyString => false
  | String ch' rest => Ascii.eqb ch' ch || includes ch rest
  end.

(** ** The selection that a session shows *)

(** The file whose conversion the session holds after an action: the first
    file of a selection that is not empty, none after a clear, the one before
    otherwise. *)
Definition selects (shown : option File) (a : Action) : option File :=
  match a with
  | SelectFile (Some (file :: _)) => Some file
  | Clear => None
  | _ => shown
  end.

Definition lastSelection (actions : list Action) : option File :=
  fold_left selects actions None.

Definition nameOfSelection (shown : option File) : string :=
  match shown with
  | Some file => file_name file
  | None => ""
  end.

Section Selection.
Context `{P : Platform}.

Definition textOfSelection (shown : option File) : string :=
  match shown with
  | Some file =>
      match convertExcelToText file with
      | Fulfilled text => text
      | Rejected _ => ""
      end
  | None => ""
  end.

(** The error, when there is one, is the message of a failed copy, or that of
    the rejected conversion of the shown file, and then no text is held. *)
Definition errorOfSelection (shown : option File) (c : Component) : Prop :=
  errorMessage c = ""
  ∨ errorMessage c = "复制到剪贴板失败"
  ∨ ∃ file error, shown = Some file
                  ∧ convertExcelToText file = Rejected error
                  ∧ errorMessage c = errorText error
                  ∧ convertedText c = "".

(** The session holds the name and the conversion of the shown file. *)
Definition holdsSelection (shown : option File) (c : Component) : Prop :=
  fileName c = nameOfSelection shown
  ∧ convertedText c = textOfSelection shown
  ∧ errorOfSelection shown c.

End Selection.

(** ** Runs of the converter whose collaborators may answer differently

    To compare two runs of the converter, what [XLSX.read], [sheet_to_json]
    and [String(n)] answer is taken as a relation between the argument and
    the answers that a run may get.  The functions of the platform are one
    such behaviour, [platformAnswers]. *)


(** A loop [xs.forEach(x => ...)] on an accumulator, one run of the body per
    element. *)
Inductive forEachRun {A : Type} (body : string → A → string → Prop)
  : list A → string → string → Prop :=
  | forEachRun_nil (text : string) : forEachRun body [] text text
  | forEachRun_cons (x : A) (xs : list A) (text text' text'' : string) :
      body text x text' →
      forEachRun body xs text' text'' →
      forEachRun body (x :: xs) text text''.

Section Runs.
Context `{P : Platform}.

Record Answers : Type := {
  XLSX_read_answers : list byte → Thrown + WorkBook WorkSheet → Prop;
  sheet_to_json_answers :
    option WorkSheet → list (list (Cell Number)) → Prop;
  String_answers : Number → string → Prop;
}.



(** One slot of [row.map(...)]: a hole stays a hole, a number goes through
    [String(cell)], the other cells do not involve a collaborator. *)
Definition mapCallbackRun (E : Answers) (cell : Cell Number)
    (part : option string) : Prop :=
  match cell with
  | CHole => part = None
  | CNumber n => ∃ s, String_answers E n s ∧ part = Some s
  | _ => part = Some (cellText cell)
  end.

Definition rowLineRun (E : Answers) (row : list (Cell Number))
    (line : string) : Prop :=
  ∃ parts, Forall2 (mapCallbackRun E) row parts
           ∧ line = Array_join TAB parts.

Definition appendRowRun (E : Answers) (text : string)
    (row : list (Cell Number)) (text' : string) : Prop :=
  if Array_some hasContent row
  then ∃ line, rowLineRun E row line ∧ text' = (text +:+ line) +:+ LF
  else text' = text.

Definition appendSheetRun (E : Answers) (workbook : WorkBook WorkSheet)
    (text : string) (sheetName : string) (text' : string) : Prop :=
  ∃ jsonData body,
    sheet_to_json_answers E (Sheets workbook !! sheetName) jsonData
    ∧ forEachRun (appendRowRun E) jsonData
        (text +:+ (sheetHeader sheetName +:+ LF)) body
    ∧ text' = body +:+ LF.

Definition workbookTextRun (E : Answers) (workbook : WorkBook WorkSheet)
    (text : string) : Prop :=
  forEachRun (appendSheetRun E workbook) (SheetNames workbook) "" text.

(** One run of [convertExcelToText] and how its promise settles. *)
Definition convertExcelToTextRun (E : Answers) (file : File)
    (settled : Settled string) : Prop :=
  match readAsArrayBuffer file with
  | ReadFailed => settled = Rejected (JSError "读取文件时出错")
  | Loaded None => settled = Rejected (JSError "无法读取文件数据")
  | Loaded (Some data) =>
      ∃ outcome,
        XLSX_read_answers E data outcome
        ∧ match outcome with
          | inl error => settled = Rejected error
          | inr workbook =>
              ∃ text, workbookTextRun E workbook text
                      ∧ settled = Fulfilled text
          end
  end.

End Runs.

(** A parser that answers one of two workbooks to the same bytes. *)
Definition wavering : Answers (P := demo) :=
  @Build_Answers demo
    (λ _ (outcome : Thrown + WorkBook (list (list (Cell Z)))),
       outcome = inr sheet1_workbook ∨ outcome = inr mimic_workbook)
    (λ worksheet rows, demo_sheet_to_json worksheet = rows)
    (λ n s, demo_number_to_string n = s).

(** ** The lines of a sheet *)

Section SheetLines.
Context `{P : Platform}.

(** The lines that a sheet contributes. *)
Definition sheetLines (workbook : WorkBook WorkSheet) (sheetName : string)
  : list string :=
  (sheetHeader sheetName
   :: map rowText (List.filter retained (sheetRows workbook sheetName))
   ++ [EmptyString])%list.

(** No line break in a sheet name or in a retained row. *)
Definition singleLineSheet (workbook : WorkBook WorkSheet)
    (sheetName : string) : bool :=
  negb (hasLF sheetName)
  && forallb (λ row, negb (hasLF (rowText row)))
       (List.filter retained (sheetRows workbook sheetName)).

End SheetLines.

(** ** Further example inputs *)

(** [two_sheets_workbook] with a worksheet that [SheetNames] does not list. *)
Definition unlisted_sheet_workbook : WorkBook (list (list (Cell Z))) :=
  {| SheetNames := ["Data"; "Notes"];
     Sheets := <[ "Hidden" := [[CString "secret"]] ]>
                 (Sheets two_sheets_workbook) |}.

Definition sparse_row : list (Cell Z) :=
  [CHole; CString "x"; CNull; CNumber 0%Z; CBoolean false; CUndefined].

(** A session in the middle of a conversion. *)
Definition processing : Component :=
  {| fileInput := Some "C:/fakepath/Report.xlsx"; convertedText := "";
     isProcessing := true; fileName := "Report.xlsx"; errorMessage := "" |}.

(** * Properties *)

(** ** Strings *)

Lemma append_nil_l (t : string) : "" +:+ t = t.
Proof. reflexivity. Qed.

Lemma append_cons (ch : ascii) (s t : string) :
  String ch s +:+ t = String ch (s +:+ t).
Proof. reflexivity. Qed.

Lemma append_nil_r (s : string) : s +:+ "" = s.
Proof.
  induction s as [|ch s IH]; [done |]. by rewrite append_cons, IH.
Qed.

Lemma append_assoc (s t u : string) : (s +:+ t) +:+ u = s +:+ (t +:+ u).
Proof.
  induction s as [|ch s IH]; [done |]. by rewrite !append_cons, IH.
Qed.

Lemma length_append (s t : string) :
  String.length (s +:+ t) = String.length s + String.length t.
Proof.
  induction s as [|ch s IH]; [done |]. rewrite append_cons. simpl.
  by rewrite IH.
Qed.

Lemma truthy_true (s : string) : truthy s = true ↔ s ≠ "".
Proof.
  unfold truthy. destruct (String.eqb_spec s ""); simpl; split; congruence.
Qed.

Lemma truthy_false (s : string) : truthy s = false ↔ s = "".
Proof.
  unfold truthy. destruct (String.eqb_spec s ""); simpl; split; congruence.
Qed.

Lemma concatText_app (xs ys : list string) :
  concatText (xs ++ ys) = concatText xs +:+ concatText ys.
Proof.
  induction xs as [|x xs IH]; simpl; [done |].
  by rewrite IH, append_assoc.
Qed.

(** ** The converter is the concatenation of the sheet blocks *)

Section ConverterFacts.
Context `{P : Platform}.

#[local] Abbreviation Row := (list (Cell Number)).

Lemma Array_some_hasContent (row : Row) :
  Array_some hasContent row = retained row.
Proof.
  unfold Array_some, retained.
  induction row as [|cell row IH]; simpl; [done |].
  rewrite IH, negb_andb. f_equal.
  destruct cell as [| | |s|n|b]; simpl; done.
Qed.

Lemma rowLine_rowText (row : Row) : rowLine row = rowText row.
Proof.
  unfold rowLine, rowText, Array_join, Array_map.
  rewrite map_map. f_equal. apply map_ext.
  intros [| | |s|n|b]; done.
Qed.

Lemma appendRow_spec (text : string) (row : Row) :
  appendRow text row
  = text +:+ (if retained row then rowText row +:+ LF else "").
Proof.
  unfold appendRow. rewrite Array_some_hasContent, rowLine_rowText.
  destruct (retained row).
  - apply append_assoc.
  - by rewrite append_nil_r.
Qed.

Lemma fold_appendRow (rows : list Row) (text : string) :
  fold_left appendRow rows text
  = text +:+ concatText (map (λ row, rowText row +:+ LF)
                           (List.filter retained rows)).
Proof.
  revert text. induction rows as [|row rows IH]; intros text; simpl.
  - by rewrite append_nil_r.
  - rewrite IH, appendRow_spec. destruct (retained row); simpl.
    + by rewrite append_assoc.
    + by rewrite append_nil_r.
Qed.

Lemma appendSheet_spec (workbook : WorkBook WorkSheet)
    (text sheetName : string) :
  appendSheet workbook text sheetName
  = text +:+ sheetBlock workbook sheetName.
Proof.
  unfold appendSheet, sheetBlock, sheetRows.
  rewrite fold_appendRow. by rewrite !append_assoc.
Qed.

Lemma fold_appendSheet (workbook : WorkBook WorkSheet)
    (names : list string) (text : string) :
  fold_left (appendSheet workbook) names text
  = text +:+ concatText (map (sheetBlock workbook) names).
Proof.
  revert text. induction names as [|name names IH]; intros text; simpl.
  - by rewrite append_nil_r.
  - by rewrite IH, appendSheet_spec, append_assoc.
Qed.

Lemma workbookText_blocks (workbook : WorkBook WorkSheet) :
  workbookText workbook = spec_workbookText workbook.
Proof. unfold workbookText. by rewrite fold_appendSheet. Qed.

End ConverterFacts.

(** ** Lines and header lines of the result *)

Lemma LF_append (s : string) : LF +:+ s = String "010" s.
Proof. reflexivity. Qed.

Lemma lines_LF (s : string) : lines (String "010" s) = "" :: lines s.
Proof. reflexivity. Qed.

Lemma hasLF_append (s t : string) : hasLF (s +:+ t) = hasLF s || hasLF t.
Proof.
  induction s as [|ch s IH]; [done |].
  rewrite append_cons. simpl. by rewrite IH, orb_assoc.
Qed.

Lemma lines_line_app (a s : string) :
  hasLF a = false → lines (a +:+ LF +:+ s) = a :: lines s.
Proof.
  induction a as [|ch a IH]; intros Ha.
  - by rewrite append_nil_l, LF_append, lines_LF.
  - simpl in Ha. apply orb_false_iff in Ha as [Hch Ha].
    rewrite append_cons. simpl. by rewrite Hch, (IH Ha).
Qed.

Lemma hasLF_sheetHeader (name : string) : hasLF (sheetHeader name) = hasLF name.
Proof.
  unfold sheetHeader. rewrite !hasLF_append. simpl. by rewrite orb_false_r.
Qed.

Lemma endsWith_app (a p : string) : endsWith p (a +:+ p) = true.
Proof.
  induction a as [|ch a IH].
  - rewrite append_nil_l. destruct p; cbn [endsWith]; by rewrite String.eqb_refl.
  - rewrite append_cons. cbn [endsWith]. rewrite IH. apply orb_true_r.
Qed.

Lemma endsWith_inv (p s : string) :
  endsWith p s = true → ∃ a, s = a +:+ p.
Proof.
  induction s as [|ch s IH]; cbn [endsWith]; intros H.
  - rewrite orb_false_r in H. apply String.eqb_eq in H. by exists "".
  - apply orb_true_iff in H as [H|H].
    + apply String.eqb_eq in H. by exists "".
    + destruct (IH H) as [a ->]. by exists (String ch a).
Qed.

Lemma isHeaderLine_sheetHeader (name : string) :
  isHeaderLine (sheetHeader name) = true.
Proof.
  unfold isHeaderLine, sheetHeader. rewrite !andb_true_iff.
  split; [split |].
  - apply Nat.leb_le. rewrite !length_append. simpl. lia.
  - reflexivity.
  - rewrite <- append_assoc. apply endsWith_app.
Qed.

Lemma isHeaderLine_empty : isHeaderLine "" = false.
Proof. reflexivity. Qed.

Section HeaderLines.
Context `{P : Platform}.

#[local] Abbreviation Row := (list (Cell Number)).

Lemma lines_rows (rows : list Row) (rest : string) :
  Forall (λ row, hasLF (rowText row) = false) rows →
  lines (concatText (map (λ row, rowText row +:+ LF) rows) +:+ rest)
  = (map rowText rows ++ lines rest)%list.
Proof.
  induction 1 as [|row rows Hrow _ IH]; simpl; [done |].
  rewrite !append_assoc, lines_line_app by done. by rewrite IH.
Qed.

Lemma plainRow_retained (rows : list Row) :
  forallb plainRow rows = true →
  Forall (λ row, hasLF (rowText row) = false
                 ∧ isHeaderLine (rowText row) = false)
    (List.filter retained rows).
Proof.
  induction rows as [|row rows IH]; simpl; intros H; [constructor |].
  apply andb_true_iff in H as [Hrow Hrows]. unfold plainRow in Hrow.
  destruct (retained row); simpl in Hrow; [| by apply IH].
  apply andb_true_iff in Hrow as [H1 H2].
  apply negb_true_iff in H1, H2. constructor; [done | by apply IH].
Qed.

Lemma filter_isHeaderLine_rows (rows : list Row) :
  Forall (λ row, isHeaderLine (rowText row) = false) rows →
  List.filter isHeaderLine (map rowText rows) = [].
Proof.
  induction 1 as [|row rows Hrow _ IH]; simpl; [done |]. by rewrite Hrow.
Qed.

Lemma lines_sheetBlock (workbook : WorkBook WorkSheet)
    (sheetName rest : string) :
  plainSheet workbook sheetName = true →
  lines (sheetBlock workbook sheetName +:+ rest)
  = (sheetHeader sheetName
     :: map rowText (List.filter retained (sheetRows workbook sheetName))
     ++ "" :: lines rest)%list.
Proof.
  unfold plainSheet, sheetBlock. intros H.
  apply andb_true_iff in H as [Hname Hrows]. apply negb_true_iff in Hname.
  apply plainRow_retained in Hrows.
  rewrite !append_assoc, lines_line_app by by rewrite hasLF_sheetHeader.
  rewrite lines_rows, LF_append, lines_LF; [done |].
  eapply Forall_impl; [exact Hrows |]. by intros row [? _].
Qed.

Lemma headerLines_sheetBlock (workbook : WorkBook WorkSheet)
    (sheetName rest : string) :
  plainSheet workbook sheetName = true →
  headerLines (sheetBlock workbook sheetName +:+ rest)
  = sheetHeader sheetName :: headerLines rest.
Proof.
  intros H. unfold headerLines. rewrite lines_sheetBlock by done.
  simpl. rewrite isHeaderLine_sheetHeader, List.filter_app. simpl.
  rewrite filter_isHeaderLine_rows; [done |].
  unfold plainSheet in H. apply andb_true_iff in H as [_ Hrows].
  apply plainRow_retained in Hrows.
  eapply Forall_impl; [exact Hrows |]. by intros row [_ ?].
Qed.

Lemma headerLines_blocks (workbook : WorkBook WorkSheet)
    (names : list string) :
  forallb (plainSheet workbook) names = true →
  headerLines (concatText (map (sheetBlock workbook) names))
  = map sheetHeader names.
Proof.
  induction names as [|name names IH]; simpl; intros H; [done |].
  apply andb_true_iff in H as [Hname Hnames].
  rewrite headerLines_sheetBlock by done. by rewrite IH.
Qed.

End HeaderLines.

Lemma startsWith_inv (p s : string) :
  startsWith p s = true → ∃ r, s = p +:+ r.
Proof.
  revert s. induction p as [|a p IH]; intros s H.
  - by exists s.
  - destruct s as [|b s]; simpl in H; [done |].
    apply andb_true_iff in H as [Hab H]. apply Ascii.eqb_eq in Hab as ->.
    destruct (IH s H) as [r ->]. by exists r.
Qed.

Lemma append_split (p r a q : string) :
  p +:+ r = a +:+ q → (String.length p <= String.length a)%nat →
  ∃ t, a = p +:+ t ∧ r = t +:+ q.
Proof.
  revert a. induction p as [|ch p IH]; intros a Heq Hlen.
  - by exists a.
  - destruct a as [|ch' a]; simpl in Hlen; [lia |].
    rewrite !append_cons in Heq. injection Heq as -> Heq.
    destruct (IH a Heq) as (t & -> & ->); [lia |]. by exists t.
Qed.

(** [isHeaderLine] recognises exactly the texts [===== <text> =====]. *)
Lemma isHeaderLine_spec (l : string) :
  isHeaderLine l = true ↔ ∃ text, l = sheetHeader text.
Proof.
  split; [| intros [text ->]; apply isHeaderLine_sheetHeader].
  unfold isHeaderLine. rewrite !andb_true_iff. intros [[Hlen Hpre] Hsuf].
  apply Nat.leb_le in Hlen.
  apply startsWith_inv in Hpre as [r Hr].
  apply endsWith_inv in Hsuf as [a Ha].
  assert (String.length a = String.length l - 6) as Hla.
  { rewrite Ha, length_append. simpl. lia. }
  rewrite Hr in Ha. apply append_split in Ha as (t & _ & ->); [| simpl; lia].
  exists t. by rewrite Hr.
Qed.

(** ** Rows that are left out *)

Section Rows.
Context `{P : Platform}.

#[local] Abbreviation Row := (list (Cell Number)).

Lemma isEmptyCell_spec (cell : Cell Number) :
  isEmptyCell cell = true ↔ emptyCell cell.
Proof.
  unfold emptyCell. split.
  - destruct cell as [| | |s|n|b]; simpl; intros H; auto; try discriminate.
    apply String.eqb_eq in H as ->. auto.
  - intros [-> | [-> | [-> | ->]]]; reflexivity.
Qed.

Lemma retained_false (row : Row) :
  retained row = false ↔ Forall emptyCell row.
Proof.
  unfold retained. rewrite negb_false_iff, forallb_forall, Forall_forall.
  split; intros H cell Hin.
  - apply isEmptyCell_spec, H. by apply list_elem_of_In.
  - apply isEmptyCell_spec, H. by apply list_elem_of_In.
Qed.

Lemma appendRow_empty (row : Row) :
  appendRow "" row = if retained row then rowText row +:+ LF else "".
Proof. by rewrite appendRow_spec, append_nil_l. Qed.

Lemma line_not_empty (s : string) : s +:+ LF ≠ "".
Proof. by destruct s. Qed.

Lemma concat_rows (rows : list Row) :
  concatText (map (λ row, rowText row +:+ LF) (List.filter retained rows))
  = concatText (map (appendRow "") rows).
Proof.
  induction rows as [|row rows IH]; simpl; [done |].
  rewrite appendRow_empty. destruct (retained row); simpl; by rewrite IH.
Qed.

End Rows.

(** C1 (as stated, in a case where it fails): the workbook with the single
    sheet [A] whose only cell holds the text [===== A =====] converts to a
    text with two header lines, although it has one sheet. *)
Lemma C1_header_lines_counterexample :
  SheetNames mimic_workbook = ["A"]
  ∧ workbookText (P := demo) mimic_workbook
    = "===== A =====" +:+ LF +:+ "===== A =====" +:+ LF +:+ LF
  ∧ headerLines (workbookText (P := demo) mimic_workbook)
    = ["===== A ====="; "===== A ====="]
  ∧ headerLines (workbookText (P := demo) mimic_workbook)
    ≠ map sheetHeader (SheetNames mimic_workbook).
Proof. vm_compute. repeat split; try reflexivity. discriminate. Qed.

(** C1 (amended): for every workbook the conversion result is the
    concatenation, over the sheet names in declared order, of the header line
    [===== <sheetName> =====] and a newline, then every retained row with its
    cells in column order (an absent or null cell as the empty string) joined
    by a tab and ended by a newline, then one blank line.  So one header is
    emitted per sheet, in input order; these are all the header-shaped lines
    of the result when no sheet name and no retained row has a line break and
    no retained row reads like a header. *)
Theorem C1_workbookText_is_concatenation_of_sheet_blocks
    `{P : Platform} (workbook : WorkBook WorkSheet) :
  workbookText workbook
  = concatText
      (map (λ sheetName,
              sheetHeader sheetName +:+ LF
              +:+ concatText
                    (map (λ row, join TAB (map renderedCell row) +:+ LF)
                       (List.filter retained (sheetRows workbook sheetName)))
              +:+ LF)
         (SheetNames workbook))
  ∧ (plainWorkbook workbook = true →
     headerLines (workbookText workbook)
     = map sheetHeader (SheetNames workbook)).
Proof.
  split.
  - apply workbookText_blocks.
  - intros Hplain. rewrite workbookText_blocks.
    by apply headerLines_blocks.
Qed.

Lemma C1_two_sheets_witness :
  headerLines (workbookText (P := demo) two_sheets_workbook)
  = ["===== Data ====="; "===== Notes ====="]
  ∧ workbookText (P := demo) two_sheets_workbook
    = "===== Data =====" +:+ LF
      +:+ "x" +:+ TAB +:+ "42" +:+ TAB +:+ "true" +:+ LF +:+ LF
      +:+ "===== Notes =====" +:+ LF +:+ TAB +:+ " " +:+ LF +:+ LF.
Proof.
  split.
  - apply (proj2 (C1_workbookText_is_concatenation_of_sheet_blocks
                    (P := demo) two_sheets_workbook)).
    vm_compute. reflexivity.
  - rewrite (proj1 (C1_workbookText_is_concatenation_of_sheet_blocks
                      (P := demo) two_sheets_workbook)).
    vm_compute. reflexivity.
Defined.

(** C2: the result is made of the sheets' headers and the rows' outputs; a
    row's output is empty, so the row is left out, exactly when each of its
    cells is absent, null or the empty string, and it is the row's line
    otherwise.  A row with a single space is kept, and the workbook [Sheet1]
    with rows [[["a","b"],[],["", null]]] gives the header, the line of the
    first row and the blank line. *)
Theorem C2_row_omitted_iff_all_cells_empty `{P : Platform} :
  (∀ workbook : WorkBook WorkSheet,
     workbookText workbook
     = concatText
         (map (λ sheetName,
                 sheetHeader sheetName +:+ LF
                 +:+ concatText
                       (map (appendRow "") (sheetRows workbook sheetName))
                 +:+ LF)
            (SheetNames workbook)))
  ∧ (∀ row : list (Cell Number),
       (appendRow "" row = "" ↔ Forall emptyCell row)
       ∧ (¬ Forall emptyCell row →
          appendRow "" row = join TAB (map renderedCell row) +:+ LF))
  ∧ (∀ text : string,
       appendRow text [CString " "] = text +:+ " " +:+ LF)
  ∧ (∀ worksheet : WorkSheet,
       sheet_to_json (Some worksheet)
       = [[CString "a"; CString "b"]; []; [CString ""; CNull]] →
       workbookText {| SheetNames := ["Sheet1"];
                       Sheets := {[ "Sheet1" := worksheet ]} |}
       = "===== Sheet1 =====" +:+ LF +:+ "a" +:+ TAB +:+ "b" +:+ LF +:+ LF).
Proof.
  split; [| split; [| split]].
  - intros workbook. rewrite workbookText_blocks.
    unfold spec_workbookText, sheetBlock. f_equal. apply map_ext.
    intros name. by rewrite concat_rows.
  - intros row. rewrite appendRow_empty, <- retained_false.
    destruct (retained row); split.
    + split; [| done]. intros H. by apply line_not_empty in H.
    + done.
    + done.
    + intros H. by destruct H.
  - intros text. by rewrite appendRow_spec.
  - intros worksheet Hrows. unfold workbookText, appendSheet. simpl.
    rewrite lookup_singleton_eq, Hrows. reflexivity.
Qed.

Lemma C2_sheet1_witness :
  workbookText (P := demo) sheet1_workbook
  = "===== Sheet1 =====" +:+ LF +:+ "a" +:+ TAB +:+ "b" +:+ LF +:+ LF.
Proof.
  apply (proj2 (proj2 (proj2 (C2_row_omitted_iff_all_cells_empty (P := demo))))).
  reflexivity.
Defined.

(** ** The session *)

Section SessionFacts.
Context `{P : Platform}.

Lemma handleFileUpload_fulfilled (c : Component) (file : File)
    (others : list File) (text : string) :
  convertExcelToText file = Fulfilled text →
  handleFileUpload (Some (file :: others)) c
  = {| fileInput := match fileInput c with Some _ => Some "" | None => None end;
       convertedText := text; isProcessing := false;
       fileName := file_name file; errorMessage := "" |}.
Proof. intros H. unfold handleFileUpload. by rewrite H. Qed.

Lemma handleFileUpload_rejected (c : Component) (file : File)
    (others : list File) (error : Thrown) :
  convertExcelToText file = Rejected error →
  handleFileUpload (Some (file :: others)) c
  = {| fileInput := fileInput c;
       convertedText := ""; isProcessing := false;
       fileName := file_name file; errorMessage := errorText error |}.
Proof. intros H. unfold handleFileUpload. by rewrite H. Qed.


Lemma handleFileUpload_exclusive (c : Component) (file : File)
    (others : list File) :
  exclusive (handleFileUpload (Some (file :: others)) c).
Proof.
  unfold handleFileUpload.
  destruct (convertExcelToText file); [by right | by left].
Qed.

Lemma step_exclusive (c : Component) (a : Action) :
  a ≠ Copy false → exclusive c → exclusive (step c a).
Proof.
  intros Ha Hc. destruct a as [[[|file others]|]|[|]| |]; simpl; try done.
  - apply (handleFileUpload_exclusive c file others).
  - unfold copyToClipboard. by destruct (truthy (convertedText c)).
  - unfold downloadTextFile. by destruct (truthy (convertedText c)).
  - by left.
Qed.

Lemma run_exclusive (actions : list Action) (c : Component) :
  Forall (λ a, a ≠ Copy false) actions →
  exclusive c → exclusive (run c actions).
Proof.
  intros Hall. revert c.
  induction Hall as [|a actions Ha _ IH]; intros c Hc; [done |].
  apply IH. by apply step_exclusive.
Qed.

Lemma step_startsAfresh (c : Component) (a : Action) :
  startsAfresh a → exclusive (step c a).
Proof.
  intros [-> | (file & others & ->)]; simpl.
  - by left.
  - apply (handleFileUpload_exclusive c file others).
Qed.

End SessionFacts.

(** Selections whose conversions overlap are not sequences of [run]: when the
    first conversion is rejected after the second selection has started and
    the second then succeeds, the error of the first stays next to the text
    of the second. *)
Remark overlapping_selections_keep_error (c : Component)
    (file1 file2 : File) (error : Thrown) (text : string) :
  let c' :=
    handleFileUpload_after_await (Fulfilled text)
      (handleFileUpload_after_await (Rejected error)
         (handleFileUpload_before_await file2
            (handleFileUpload_before_await file1 c))) in
  convertedText c' = text
  ∧ errorMessage c' = errorText error
  ∧ fileName c' = file_name file2.
Proof. cbv zeta. repeat split. Qed.

Section Reachable.
Context `{P : Platform}.

Lemma step_exclusiveUpToCopy (c : Component) (a : Action) :
  exclusiveUpToCopy c → exclusiveUpToCopy (step c a).
Proof.
  intros Hc. destruct a as [[[|file others]|]|[|]| |]; simpl; try done.
  - left. apply (handleFileUpload_exclusive c file others).
  - unfold copyToClipboard. by destruct (truthy (convertedText c)).
  - unfold copyToClipboard.
    destruct (truthy (convertedText c)); simpl; [by right | done].
  - unfold downloadTextFile. by destruct (truthy (convertedText c)).
  - left. by left.
Qed.

Lemma run_exclusiveUpToCopy (actions : list Action) (c : Component) :
  exclusiveUpToCopy c → exclusiveUpToCopy (run c actions).
Proof.
  revert c. induction actions as [|a actions IH]; intros c Hc; [done |].
  apply IH. by apply step_exclusiveUpToCopy.
Qed.

End Reachable.



(** C4 (as stated, in a case where it fails): after a file has been converted
    and a copy has failed, the text and the error are both non-empty. *)
Lemma C4_failed_copy_counterexample :
  let c := run (P := demo) initial
             [SelectFile (Some [readable_file]); Copy false] in
  convertedText c = "===== Sheet1 =====" +:+ LF +:+ "PK" +:+ LF +:+ LF
  ∧ errorMessage c = "复制到剪贴板失败"
  ∧ ¬ exclusive c.
Proof.
  cbv zeta. split; [reflexivity |]. split; [reflexivity |].
  intros [H | H]; vm_compute in H; discriminate.
Qed.

(** C4 (amended): after a file selection that ran a conversion (or a clear),
    and through every further sequence of file selections, downloads, clears
    and copies that succeed, at most one of the text and the error is
    non-empty.  With failing copies allowed, the two can be non-empty
    together only when the error is the message of a failed copy. *)
Theorem C4_text_and_error_exclusive_without_failed_copy
    `{P : Platform} (c : Component) (a : Action) (rest : list Action) :
  startsAfresh a →
  Forall (λ a', a' ≠ Copy false) rest →
  exclusive (run (step c a) rest)
  ∧ (∀ actions : list Action,
       exclusive (run initial actions)
       ∨ errorMessage (run initial actions) = "复制到剪贴板失败").
Proof.
  intros Ha Hrest. split.
  - apply run_exclusive; [done |]. by apply step_startsAfresh.
  - intros actions. apply run_exclusiveUpToCopy. left. by left.
Qed.

Lemma C4_after_selection_witness :
  exclusive
    (run (P := demo)
       (step (P := demo) showing_both (SelectFile (Some [readable_file])))
       [Copy true; DownloadText; SelectFile (Some [unreadable_file])]).
Proof.
  apply (C4_text_and_error_exclusive_without_failed_copy (P := demo)).
  - right. by exists readable_file, [].
  - repeat constructor; discriminate.
Defined.

(** C5 (as stated, in a case where it fails): when a file is selected while a
    result is shown, the result is still in the text field when the
    conversion is invoked. *)
Lemma C5_text_kept_counterexample :
  let c := handleFileUpload_before_await readable_file showing_result in
  convertedText c = "A" +:+ TAB +:+ "B" +:+ LF
  ∧ convertedText c ≠ ""
  ∧ fileName c = "Report.xlsx".
Proof. cbv zeta. split; [reflexivity |]. split; [discriminate | reflexivity]. Qed.

(** C5 (amended): at the start of a file selection, before the conversion is
    invoked, the error field is reset to empty, the file name becomes the
    selected file's name and the processing flag is set; the text field is
    left as it was, and is replaced by the new text or emptied only when the
    conversion completes. *)
Theorem C5_selection_start_resets_error_only
    `{P : Platform} (c : Component) (file : File) (others : list File) :
  let c' := handleFileUpload_before_await file c in
  errorMessage c' = ""
  ∧ fileName c' = file_name file
  ∧ isProcessing c' = true
  ∧ convertedText c' = convertedText c
  ∧ fileInput c' = fileInput c
  ∧ convertedText (handleFileUpload (Some (file :: others)) c)
    = match convertExcelToText file with
      | Fulfilled text => text
      | Rejected _ => ""
      end.
Proof.
  cbv zeta. repeat split. unfold handleFileUpload.
  by destruct (convertExcelToText file).
Qed.

(** ** The name of the download *)

Lemma removeExtension_eq (s : string) :
  removeExtension s
  = if isExtension s then ""
    else match s with
         | EmptyString => EmptyString
         | String ch rest => String ch (removeExtension rest)
         end.
Proof. by destruct s. Qed.

Lemma forallb_notSlashDot_dot (b e : string) :
  forallb notSlashDot (list_ascii_of_string (b +:+ String "." e)) = false.
Proof.
  induction b as [|ch b IH]; [done |].
  rewrite append_cons. simpl. rewrite IH. apply andb_false_r.
Qed.

Lemma notSlashDot_spec (ch : ascii) :
  notSlashDot ch = true ↔ ch ≠ "/"%char ∧ ch ≠ "."%char.
Proof.
  unfold notSlashDot. rewrite andb_true_iff, !negb_true_iff, !Ascii.eqb_neq.
  done.
Qed.

Lemma isExtension_spec (s : string) :
  isExtension s = true ↔
    ∃ ext, s = String "." ext ∧ ext ≠ ""
           ∧ Forall (λ ch, ch ≠ "/"%char ∧ ch ≠ "."%char)
               (list_ascii_of_string ext).
Proof.
  destruct s as [|ch rest]; simpl.
  - split; [done | by intros (ext & [=] & _)].
  - rewrite !andb_true_iff, Ascii.eqb_eq, truthy_true, forallb_forall.
    split.
    + intros [[-> Hne] Hall]. exists rest. repeat split; [done | ].
      apply Forall_forall. intros x Hx.
      apply notSlashDot_spec, Hall. by apply list_elem_of_In.
    + intros (ext & [= -> ->] & Hne & Hall). repeat split; [done |].
      intros x Hx. apply notSlashDot_spec.
      apply (proj1 (Forall_forall _ _) Hall). by apply list_elem_of_In.
Qed.

Lemma removeExtension_strips (base ext : string) :
  isExtension (String "." ext) = true →
  removeExtension (base +:+ String "." ext) = base.
Proof.
  intros Hext. induction base as [|ch base IH].
  - by rewrite append_nil_l, removeExtension_eq, Hext.
  - rewrite append_cons, removeExtension_eq.
    cbn [isExtension]. rewrite forallb_notSlashDot_dot, andb_false_r.
    by rewrite IH.
Qed.

Lemma removeExtension_keeps (name : string) :
  (∀ base ext, name = base +:+ ext → isExtension ext = false) →
  removeExtension name = name.
Proof.
  induction name as [|ch name IH]; intros H.
  - rewrite removeExtension_eq. by rewrite (H "" "").
  - rewrite removeExtension_eq, (H "" (String ch name)) by done.
    f_equal. apply IH. intros base ext ->.
    by apply (H (String ch base) ext).
Qed.

(** C6: with a non-empty text, [downloadTextFile] hands the browser a
    plain-text blob whose content is the text and whose name is the file name
    without its extension, followed by [.txt]; the extension is the final dot
    and the non-empty run after it that has no dot and no slash, and a name
    without one is kept whole.  [Report.xlsx] with the text [A<tab>B<newline>]
    gives [Report.txt] with that content.  With an empty text nothing is
    downloaded.  The session is unchanged in both cases. *)
Theorem C6_download_name_and_content (c : Component) :
  (convertedText c ≠ "" →
   downloadTextFile c
   = (c, Some {| download := removeExtension (fileName c) +:+ ".txt";
                 blob := convertedText c;
                 blob_type := "text/plain;charset=utf-8" |}))
  ∧ (convertedText c = "" → downloadTextFile c = (c, None))
  ∧ (∀ base ext : string,
       ext ≠ "" →
       Forall (λ ch, ch ≠ "/"%char ∧ ch ≠ "."%char)
         (list_ascii_of_string ext) →
       removeExtension (base +:+ "." +:+ ext) = base)
  ∧ (∀ name : string,
       (∀ base ext, name = base +:+ ext → isExtension ext = false) →
       removeExtension name = name)
  ∧ (fileName c = "Report.xlsx" →
     convertedText c = "A" +:+ TAB +:+ "B" +:+ LF →
     snd (downloadTextFile c)
     = Some {| download := "Report.txt";
               blob := "A" +:+ TAB +:+ "B" +:+ LF;
               blob_type := "text/plain;charset=utf-8" |}).
Proof.
  unfold downloadTextFile. repeat split.
  - intros H. apply truthy_true in H. by rewrite H.
  - intros H. apply truthy_false in H. by rewrite H.
  - intros base ext Hne Hall. apply removeExtension_strips.
    apply isExtension_spec. by exists ext.
  - apply removeExtension_keeps.
  - intros -> ->. reflexivity.
Qed.

Lemma C6_report_witness :
  downloadTextFile showing_result
  = (showing_result,
     Some {| download := "Report.txt";
             blob := "A" +:+ TAB +:+ "B" +:+ LF;
             blob_type := "text/plain;charset=utf-8" |}).
Proof.
  apply (proj1 (C6_download_name_and_content showing_result)).
  discriminate.
Defined.

(** C7: [copyToClipboard] changes nothing and writes nothing when the text is
    empty; when the write fails on a non-empty text, the error field becomes
    the fixed message and the text, the file name and the other fields stay
    as they were. *)
Theorem C7_copy_noop_or_error_only (c : Component) :
  (convertedText c = "" → ∀ ok : bool, copyToClipboard ok c = (c, None))
  ∧ (convertedText c ≠ "" →
     copyToClipboard false c
     = ({| fileInput := fileInput c; convertedText := convertedText c;
           isProcessing := isProcessing c; fileName := fileName c;
           errorMessage := "复制到剪贴板失败" |}, None)).
Proof.
  unfold copyToClipboard. split.
  - intros H ok. apply truthy_false in H. by rewrite H.
  - intros H. apply truthy_true in H. by rewrite H.
Qed.

Lemma C7_failed_copy_witness :
  copyToClipboard false showing_result = (showing_both, None)
  ∧ ∀ ok : bool, copyToClipboard ok initial = (initial, None).
Proof.
  split.
  - apply (proj2 (C7_copy_noop_or_error_only showing_result)). discriminate.
  - apply (proj1 (C7_copy_noop_or_error_only initial)). reflexivity.
Defined.

(** C8: [clearResult] empties the text, the file name and the error and
    leaves the processing flag (and the file input) alone; in the cleared
    session a copy, whether or not the clipboard would accept it, and a
    download change nothing and produce nothing. *)
Theorem C8_clear_resets_and_disables_actions (c : Component) :
  let c' := clearResult c in
  convertedText c' = ""
  ∧ fileName c' = ""
  ∧ errorMessage c' = ""
  ∧ isProcessing c' = isProcessing c
  ∧ fileInput c' = fileInput c
  ∧ (∀ ok : bool, copyToClipboard ok c' = (c', None))
  ∧ downloadTextFile c' = (c', None).
Proof. cbv zeta. repeat split. Qed.

(** ** Two runs of the converter *)


Lemma forEachRun_fold_left {A : Type} (body : string → A → string → Prop)
    (f : string → A → string) (xs : list A) (text : string) :
  (∀ t x, body t x (f t x)) →
  forEachRun body xs text (fold_left f xs text).
Proof.
  intros Hbody. revert text.
  induction xs as [|x xs IH]; intros text; [constructor |].
  econstructor; [apply Hbody | apply IH].
Qed.

Section TwoRuns.
Context `{P : Platform}.







(** The converter as a function is a run for every behaviour that allows the
    answers of the platform's [sheet_to_json] and [String(n)]. *)
Lemma rowLineRun_rowLine (E : Answers) (row : list (Cell Number)) :
  (∀ n, String_answers E n (number_to_string n)) →
  rowLineRun E row (rowLine row).
Proof.
  intros Hstring. exists (Array_map cellText row). split; [| done].
  unfold Array_map. induction row as [|cell row IH]; constructor; [| done].
  destruct cell as [| | |s|n|b]; simpl; eauto.
Qed.

Lemma workbookTextRun_workbookText (E : Answers)
    (workbook : WorkBook WorkSheet) :
  (∀ worksheet, sheet_to_json_answers E worksheet (sheet_to_json worksheet)) →
  (∀ n, String_answers E n (number_to_string n)) →
  workbookTextRun E workbook (workbookText workbook).
Proof.
  intros Hsheet Hstring. apply forEachRun_fold_left.
  intros text sheetName. unfold appendSheetRun, appendSheet.
  eexists _, _. split; [apply Hsheet |]. split; [| done].
  apply forEachRun_fold_left. intros t row. unfold appendRowRun, appendRow.
  destruct (Array_some hasContent row); [| done].
  exists (rowLine row). split; [by apply rowLineRun_rowLine | done].
Qed.



End TwoRuns.

(** With a parser that may answer differently to the same bytes, two runs of
    the converter on one file can settle differently. *)
Remark wavering_parser_gives_different_texts :
  convertExcelToTextRun wavering readable_file
    (Fulfilled (workbookText (P := demo) sheet1_workbook))
  ∧ convertExcelToTextRun wavering readable_file
      (Fulfilled (workbookText (P := demo) mimic_workbook))
  ∧ workbookText (P := demo) sheet1_workbook
    ≠ workbookText (P := demo) mimic_workbook.
Proof.
  split; [| split].
  - exists (inr sheet1_workbook). split; [by left |].
    exists (workbookText (P := demo) sheet1_workbook). split; [| done].
    by apply (workbookTextRun_workbookText (P := demo) wavering).
  - exists (inr mimic_workbook). split; [by right |].
    exists (workbookText (P := demo) mimic_workbook). split; [| done].
    by apply (workbookTextRun_workbookText (P := demo) wavering).
  - vm_compute. discriminate.
Qed.



(** C10: a copy that succeeds leaves the session as it was, so an error shown
    before it is still shown, with the same text and file name; it writes the
    text to the clipboard when the text is non-empty.  Whatever the outcome,
    a copy either keeps the error field or, failing on a non-empty text, sets
    it to the fixed message. *)
Theorem C10_successful_copy_keeps_error (c : Component) :
  fst (copyToClipboard true c) = c
  ∧ snd (copyToClipboard true c)
    = (if truthy (convertedText c) then Some (convertedText c) else None)
  ∧ (∀ ok : bool,
       errorMessage (fst (copyToClipboard ok c)) = errorMessage c
       ∨ (ok = false ∧ convertedText c ≠ ""
          ∧ errorMessage (fst (copyToClipboard ok c)) = "复制到剪贴板失败")).
Proof.
  unfold copyToClipboard. repeat split.
  - by destruct (truthy (convertedText c)).
  - by destruct (truthy (convertedText c)).
  - intros ok. destruct (truthy (convertedText c)) eqn:Ht; simpl; [| by left].
    destruct ok; [by left |]. right. by apply truthy_true in Ht.
Qed.

(** * Further properties of the converter *)

Lemma startsWith_app (p s : string) : startsWith p (p +:+ s) = true.
Proof.
  induction p as [|ch p IH]; [done |].
  rewrite append_cons. simpl. by rewrite Ascii.eqb_refl, IH.
Qed.

Lemma length_join_ge (sep p : string) (parts : list string) :
  In p parts → (String.length p <= String.length (join sep parts))%nat.
Proof.
  induction parts as [|q parts IH]; [done |].
  intros [-> | Hin].
  - destruct parts; simpl; [done |]. rewrite length_append. lia.
  - destruct parts as [|r parts]; [done |].
    change (join sep (q :: r :: parts))
      with (q +:+ sep +:+ join sep (r :: parts)).
    rewrite !length_append. specialize (IH Hin). lia.
Qed.

Lemma splitOn_field (sep : ascii) (a s : string) :
  includes sep a = false →
  splitOn sep (a +:+ String sep s) = a :: splitOn sep s.
Proof.
  induction a as [|ch a IH]; intros Ha.
  - rewrite append_nil_l. simpl. by rewrite Ascii.eqb_refl.
  - simpl in Ha. apply orb_false_iff in Ha as [Hch Ha].
    rewrite append_cons. simpl. by rewrite Hch, (IH Ha).
Qed.

Lemma splitOn_whole (sep : ascii) (a : string) :
  includes sep a = false → splitOn sep a = [a].
Proof.
  induction a as [|ch a IH]; intros Ha; [done |].
  simpl in Ha. apply orb_false_iff in Ha as [Hch Ha].
  simpl. by rewrite Hch, (IH Ha).
Qed.

Lemma demo_number_to_string_not_empty (n : Z) : demo_number_to_string n ≠ "".
Proof.
  unfold demo_number_to_string.
  destruct (Z.to_int n) as [d | d]; [by destruct d | done].
Qed.

Section ConverterExtras.
Context `{P : Platform}.

#[local] Abbreviation Row := (list (Cell Number)).

Lemma sheetBlock_ext (workbook1 workbook2 : WorkBook WorkSheet)
    (name : string) :
  Sheets workbook1 !! name = Sheets workbook2 !! name →
  sheetBlock workbook1 name = sheetBlock workbook2 name.
Proof. intros H. unfold sheetBlock, sheetRows. by rewrite H. Qed.

Lemma rows_end (rows : list Row) :
  concatText (map (λ row, rowText row +:+ LF) rows) = ""
  ∨ ∃ init, concatText (map (λ row, rowText row +:+ LF) rows)
            = init +:+ LF.
Proof.
  induction rows as [|row rows [IH | [init IH]]]; simpl.
  - by left.
  - right. exists (rowText row). by rewrite IH, append_nil_r.
  - right. exists ((rowText row +:+ LF) +:+ init).
    by rewrite IH, !append_assoc.
Qed.

Lemma sheetBlock_end (workbook : WorkBook WorkSheet) (name : string) :
  ∃ init, sheetBlock workbook name = init +:+ LF +:+ LF.
Proof.
  unfold sheetBlock.
  destruct (rows_end (List.filter retained (sheetRows workbook name)))
    as [-> | [init ->]].
  - exists (sheetHeader name). by rewrite append_nil_l.
  - exists (sheetHeader name +:+ LF +:+ init). by rewrite !append_assoc.
Qed.

Lemma blocks_end (workbook : WorkBook WorkSheet) (names : list string) :
  names ≠ [] →
  ∃ init, concatText (map (sheetBlock workbook) names) = init +:+ LF +:+ LF.
Proof.
  induction names as [|name names IH]; [done |]. intros _.
  destruct names as [|name' names].
  - destruct (sheetBlock_end workbook name) as [init Hinit].
    exists init. simpl. by rewrite append_nil_r.
  - destruct IH as [init Hinit]; [done |].
    exists (sheetBlock workbook name +:+ init).
    change (concatText (map (sheetBlock workbook) (name :: name' :: names)))
      with (sheetBlock workbook name
            +:+ concatText (map (sheetBlock workbook) (name' :: names))).
    by rewrite Hinit, append_assoc.
Qed.

Lemma retained_cell (row : Row) :
  retained row = true → ∃ cell, In cell row ∧ isEmptyCell cell = false.
Proof.
  unfold retained. rewrite negb_true_iff.
  induction row as [|cell row IH]; simpl; [done |].
  destruct (isEmptyCell cell) eqn:Hcell; simpl.
  - intros H. destruct (IH H) as (cell' & Hin & Hc). eauto.
  - intros _. eauto.
Qed.

Lemma rowText_fields (row : Row) :
  row ≠ [] →
  Forall (λ cell, includes "009" (renderedCell cell) = false) row →
  splitOn "009" (rowText row) = map renderedCell row.
Proof.
  intros Hne Hall. unfold rowText.
  induction Hall as [|cell row Hcell Hrow IH]; [done |].
  destruct row as [|cell' row].
  - simpl. by apply splitOn_whole.
  - change (join TAB (map renderedCell (cell :: cell' :: row)))
      with (renderedCell cell
            +:+ String "009" (join TAB (map renderedCell (cell' :: row)))).
    rewrite splitOn_field by done. by rewrite IH.
Qed.

Lemma lines_sheetBlock_rest (workbook : WorkBook WorkSheet)
    (name rest : string) :
  singleLineSheet workbook name = true →
  lines (sheetBlock workbook name +:+ rest)
  = (sheetHeader name
     :: map rowText (List.filter retained (sheetRows workbook name))
     ++ "" :: lines rest)%list.
Proof.
  unfold singleLineSheet, sheetBlock. intros H.
  apply andb_true_iff in H as [Hname Hrows]. apply negb_true_iff in Hname.
  rewrite !append_assoc, lines_line_app by by rewrite hasLF_sheetHeader.
  rewrite lines_rows, LF_append, lines_LF; [done |].
  apply Forall_forall. intros row Hrow.
  apply negb_true_iff. apply (proj1 (forallb_forall _ _) Hrows).
  by apply list_elem_of_In.
Qed.

Lemma lines_blocks (workbook : WorkBook WorkSheet) (names : list string) :
  forallb (singleLineSheet workbook) names = true →
  lines (concatText (map (sheetBlock workbook) names))
  = (flat_map (sheetLines workbook) names ++ [""])%list.
Proof.
  induction names as [|name names IH];
    cbn [map concatText forallb flat_map]; intros H; [done |].
  apply andb_true_iff in H as [Hname Hnames].
  rewrite lines_sheetBlock_rest by done. rewrite IH by done.
  unfold sheetLines. cbn [app]. by rewrite <- !app_assoc.
Qed.

End ConverterExtras.

Lemma cellText_renderedCell `{P : Platform} (cell : Cell Number) :
  cellText cell = renderedCell cell.
Proof. by destruct cell. Qed.

(** X1: the text of a workbook whose sheet names are two lists one after the
    other is the text for the first list followed by the text for the second,
    over the same sheets: a sheet's part of the result does not depend on the
    sheets around it. *)
Theorem X1_workbookText_of_appended_sheet_names
    `{P : Platform} (sheets : gmap string WorkSheet)
    (names1 names2 : list string) :
  workbookText {| SheetNames := names1 ++ names2; Sheets := sheets |}
  = workbookText {| SheetNames := names1; Sheets := sheets |}
    +:+ workbookText {| SheetNames := names2; Sheets := sheets |}.
Proof.
  rewrite !workbookText_blocks. unfold spec_workbookText.
  cbn [SheetNames]. rewrite map_app, concatText_app. reflexivity.
Qed.

(** X2: the result reads the [Sheets] object only under the names that
    [SheetNames] lists: two workbooks with the same sheet names whose sheets
    agree under those names convert to the same text, so a worksheet that is
    not listed never reaches the output. *)
Theorem X2_unlisted_sheets_are_ignored
    `{P : Platform} (workbook1 workbook2 : WorkBook WorkSheet) :
  SheetNames workbook1 = SheetNames workbook2 →
  Forall (λ name, Sheets workbook1 !! name = Sheets workbook2 !! name)
    (SheetNames workbook1) →
  workbookText workbook1 = workbookText workbook2.
Proof.
  intros Hnames Hsheets. rewrite !workbookText_blocks.
  unfold spec_workbookText. rewrite <- Hnames. f_equal. clear Hnames.
  revert Hsheets. generalize (SheetNames workbook1) as names.
  intros names Hsheets.
  induction Hsheets as [|name names Hname _ IH]; [done |].
  cbn [map]. by rewrite IH, (sheetBlock_ext _ _ _ Hname).
Qed.

Lemma X2_hidden_sheet_witness :
  workbookText (P := demo) two_sheets_workbook
  = workbookText (P := demo) unlisted_sheet_workbook.
Proof.
  apply (X2_unlisted_sheets_are_ignored (P := demo)).
  - reflexivity.
  - repeat constructor.
Defined.

(** X3: the result is the empty string exactly when the workbook lists no
    sheet; with at least one sheet it starts with the header line of the
    first sheet and ends with an empty line. *)
Theorem X3_text_empty_iff_no_sheet
    `{P : Platform} (workbook : WorkBook WorkSheet) :
  (workbookText workbook = "" ↔ SheetNames workbook = [])
  ∧ (∀ name rest, SheetNames workbook = name :: rest →
       startsWith (sheetHeader name +:+ LF) (workbookText workbook) = true
       ∧ endsWith (LF +:+ LF) (workbookText workbook) = true).
Proof.
  rewrite workbookText_blocks. unfold spec_workbookText.
  destruct (SheetNames workbook) as [|name rest] eqn:Hnames.
  - split; [done |]. by intros name rest.
  - split.
    + split; [| done]. cbn [map concatText]. unfold sheetBlock, sheetHeader.
      rewrite !append_assoc. by intros H.
    + intros name' rest' [= <- <-]. split.
      * cbn [map concatText]. unfold sheetBlock.
        rewrite <- !append_assoc. rewrite (append_assoc (_ +:+ LF)).
        rewrite (append_assoc (sheetHeader name +:+ LF)).
        apply startsWith_app.
      * destruct (blocks_end workbook (name :: rest)) as [init ->]; [done |].
        rewrite <- append_assoc. rewrite append_assoc. apply endsWith_app.
Qed.

Lemma X3_two_sheets_witness :
  startsWith (sheetHeader "Data" +:+ LF)
    (workbookText (P := demo) two_sheets_workbook) = true
  ∧ endsWith (LF +:+ LF) (workbookText (P := demo) two_sheets_workbook) = true.
Proof.
  apply (proj2 (X3_text_empty_iff_no_sheet (P := demo) two_sheets_workbook)
           "Data" ["Notes"]).
  reflexivity.
Defined.

(** X4: when no number prints as the empty string, the line of a row that is
    kept is not the empty string: the cell that makes the row kept prints at
    least one character into it. *)
Theorem X4_kept_row_gives_non_empty_line
    `{P : Platform} (row : list (Cell Number)) :
  (∀ n, number_to_string n ≠ "") →
  Array_some hasContent row = true →
  rowLine row ≠ "".
Proof.
  intros Hnum Hrow. rewrite Array_some_hasContent in Hrow.
  rewrite rowLine_rowText.
  destruct (retained_cell row Hrow) as (cell & Hin & Hcell).
  assert (renderedCell cell ≠ "") as Hne.
  { destruct cell as [| | |s|n|[|]]; simpl in *; try done.
    - by apply String.eqb_neq in Hcell.
    - apply Hnum. }
  pose proof (length_join_ge TAB (renderedCell cell) (map renderedCell row)
                (in_map _ _ _ Hin)) as Hlen.
  intros Hempty. unfold rowText in Hempty. rewrite Hempty in Hlen.
  destruct (renderedCell cell); [done | simpl in Hlen; lia].
Qed.

Lemma X4_sparse_row_witness : rowLine (P := demo) sparse_row ≠ "".
Proof.
  apply (X4_kept_row_gives_non_empty_line (P := demo)).
  - apply demo_number_to_string_not_empty.
  - reflexivity.
Defined.

(** X5: when no cell of a non-empty row prints with a tab in it, splitting
    the row's line at the tabs gives back the cells' texts, one field per
    cell in column order, with empty fields for the absent and null cells. *)
Theorem X5_row_line_splits_into_cell_texts
    `{P : Platform} (row : list (Cell Number)) :
  row ≠ [] →
  Forall (λ cell, includes "009" (cellText cell) = false) row →
  splitOn "009" (rowLine row) = map cellText row
  ∧ length (splitOn "009" (rowLine row)) = length row.
Proof.
  intros Hne Hall.
  assert (splitOn "009" (rowLine row) = map cellText row) as Heq.
  { rewrite rowLine_rowText, rowText_fields; [| done |].
    - apply map_ext. intros cell. by rewrite cellText_renderedCell.
    - eapply Forall_impl; [exact Hall |]. intros cell Hcell.
      by rewrite <- cellText_renderedCell. }
  split; [done |]. by rewrite Heq, length_map.
Qed.

Lemma X5_sparse_row_witness :
  splitOn "009" (rowLine (P := demo) sparse_row)
  = [""; "x"; ""; "0"; "false"; ""]
  ∧ length (splitOn "009" (rowLine (P := demo) sparse_row)) = 6.
Proof.
  apply (X5_row_line_splits_into_cell_texts (P := demo) sparse_row).
  - discriminate.
  - repeat constructor.
Defined.

(** X6: when no sheet name and no kept row has a line break in it, the lines
    of the result are, sheet after sheet in the order of [SheetNames], the
    header, the lines of the kept rows in row order and an empty line,
    followed by one last empty line after the final newline. *)
Theorem X6_lines_of_the_result
    `{P : Platform} (workbook : WorkBook WorkSheet) :
  forallb (singleLineSheet workbook) (SheetNames workbook) = true →
  lines (workbookText workbook)
  = (flat_map
       (λ name,
          sheetHeader name
          :: map rowLine
               (List.filter (Array_some hasContent)
                  (sheet_to_json (Sheets workbook !! name)))
          ++ [""])
       (SheetNames workbook) ++ [""])%list.
Proof.
  intros H. rewrite workbookText_blocks. unfold spec_workbookText.
  rewrite lines_blocks by done. f_equal.
  apply flat_map_ext. intros name. unfold sheetLines, sheetRows.
  f_equal. f_equal.
  rewrite (filter_ext _ _ Array_some_hasContent).
  apply map_ext. intros row. by rewrite rowLine_rowText.
Qed.

Lemma X6_two_sheets_witness :
  lines (workbookText (P := demo) two_sheets_workbook)
  = ["===== Data ====="; "x" +:+ TAB +:+ "42" +:+ TAB +:+ "true"; "";
     "===== Notes ====="; TAB +:+ " "; ""; ""].
Proof.
  rewrite (X6_lines_of_the_result (P := demo) two_sheets_workbook).
  - vm_compute. reflexivity.
  - vm_compute. reflexivity.
Defined.

(** * Further properties of the session *)

Section SessionExtras.
Context `{P : Platform}.

Lemma copyToClipboard_fields (ok : bool) (c : Component) :
  convertedText (fst (copyToClipboard ok c)) = convertedText c
  ∧ fileName (fst (copyToClipboard ok c)) = fileName c
  ∧ isProcessing (fst (copyToClipboard ok c)) = isProcessing c
  ∧ fileInput (fst (copyToClipboard ok c)) = fileInput c.
Proof.
  unfold copyToClipboard.
  destruct (truthy (convertedText c)); [by destruct ok | done].
Qed.

Lemma downloadTextFile_session (c : Component) :
  fst (downloadTextFile c) = c.
Proof. unfold downloadTextFile. by destruct (truthy (convertedText c)). Qed.

Lemma step_isProcessing (c : Component) (a : Action) :
  isProcessing c = false → isProcessing (step c a) = false.
Proof.
  intros Hc. destruct a as [[[|file others]|]|ok| |]; simpl; try done.
  - by rewrite (proj1 (proj2 (proj2 (copyToClipboard_fields ok c)))).
  - by rewrite downloadTextFile_session.
Qed.

Lemma step_holdsSelection (c : Component) (shown : option File)
    (a : Action) :
  holdsSelection shown c → holdsSelection (selects shown a) (step c a).
Proof.
  intros (Hname & Htext & Herror).
  destruct a as [[[|file others]|]|[|]| |]; cbn [step selects].
  - done.
  - unfold holdsSelection, errorOfSelection, textOfSelection.
    cbn [nameOfSelection].
    destruct (convertExcelToText file) as [text | error] eqn:Hfile.
    + rewrite (handleFileUpload_fulfilled _ _ _ _ Hfile). simpl. auto.
    + rewrite (handleFileUpload_rejected _ _ _ _ Hfile). simpl.
      repeat split. right. right. by exists file, error.
  - done.
  - assert (fst (copyToClipboard true c) = c) as ->; [| done].
    unfold copyToClipboard. by destruct (truthy (convertedText c)).
  - destruct (copyToClipboard_fields false c) as (Ht & Hn & _).
    split; [by rewrite Hn |]. split; [by rewrite Ht |].
    unfold copyToClipboard.
    destruct (truthy (convertedText c)); [| done]. right. by left.
  - by rewrite downloadTextFile_session.
  - repeat split. by left.
Qed.

Lemma run_holdsSelection (actions : list Action) (c : Component)
    (shown : option File) :
  holdsSelection shown c →
  holdsSelection (fold_left selects actions shown) (run c actions).
Proof.
  revert c shown.
  induction actions as [|a actions IH]; intros c shown Hc; [done |].
  cbn [run fold_left]. apply (IH (step c a) (selects shown a)).
  by apply step_holdsSelection.
Qed.

Lemma initial_holdsSelection : holdsSelection None initial.
Proof. repeat split. by left. Qed.

Lemma step_copy_or_download (c : Component) (a : Action) :
  (a = DownloadText ∨ ∃ ok, a = Copy ok) →
  convertedText (step c a) = convertedText c
  ∧ fileName (step c a) = fileName c.
Proof.
  intros [-> | [ok ->]]; simpl.
  - by rewrite downloadTextFile_session.
  - destruct (copyToClipboard_fields ok c) as (Ht & Hn & _). done.
Qed.

End SessionExtras.

Lemma removeExtension_prefix (name : string) :
  ∃ ext, name = removeExtension name +:+ ext
         ∧ (ext = "" ∨ isExtension ext = true).
Proof.
  induction name as [|ch name (ext & Hname & Hext)].
  - exists "". split; [done | by left].
  - rewrite removeExtension_eq.
    destruct (isExtension (String ch name)) eqn:His.
    + exists (String ch name). split; [done | by right].
    + exists ext. split; [| done]. rewrite append_cons. by rewrite <- Hname.
Qed.

Lemma removeExtension_no_dot (name : string) :
  includes "." name = false → removeExtension name = name.
Proof.
  induction name as [|ch name IH]; intros H; [done |].
  simpl in H. apply orb_false_iff in H as [Hch H].
  rewrite removeExtension_eq. cbn [isExtension]. rewrite Hch. simpl.
  by rewrite IH.
Qed.

Lemma removeExtension_trailing_dot (name : string) :
  removeExtension (name +:+ ".") = name +:+ ".".
Proof.
  induction name as [|ch name IH]; [done |].
  rewrite append_cons, removeExtension_eq. cbn [isExtension].
  rewrite (forallb_notSlashDot_dot name ""), andb_false_r.
  by rewrite IH.
Qed.

(** X7: a file selection that runs a conversion ends with the processing flag
    off whatever the flag was before and however the conversion ends; and
    from a session whose flag is off, every sequence of file selections,
    copies, downloads and clears, each run to its end, leaves it off. *)
Theorem X7_processing_flag_off_after_every_action
    `{P : Platform} (c : Component) :
  (∀ file others,
     isProcessing (handleFileUpload (Some (file :: others)) c) = false)
  ∧ (isProcessing c = false →
     ∀ actions, isProcessing (run c actions) = false).
Proof.
  split.
  - intros file others. unfold handleFileUpload.
    by destruct (convertExcelToText file).
  - intros Hc actions. revert c Hc.
    induction actions as [|a actions IH]; intros c Hc; [done |].
    apply IH. by apply step_isProcessing.
Qed.

Lemma X7_processing_witness :
  isProcessing
    (run (P := demo) initial
       [SelectFile (Some [unreadable_file]); Copy false; Clear;
        SelectFile (Some [readable_file]); DownloadText]) = false
  ∧ isProcessing
      (handleFileUpload (P := demo) (Some [empty_file]) processing) = false.
Proof.
  split.
  - apply (proj2 (X7_processing_flag_off_after_every_action (P := demo)
                    initial)).
    reflexivity.
  - apply (proj1 (X7_processing_flag_off_after_every_action (P := demo)
                    processing)).
Defined.

(** X8: in a session driven from the initial state by file selections,
    copies, downloads and clears, each run to its end, the file name and the
    text are those of the file selected last (the first file of the last
    selection that was not empty, with no clear after it): the name is that
    file's name, the text is that file's conversion, or empty when the
    conversion was rejected or no such file is left.  So whatever is
    downloaded is the converted text of that file, named after it. *)
Theorem X8_download_is_the_conversion_of_the_last_selected_file
    `{P : Platform} (actions : list Action) :
  let c := run initial actions in
  fileName c
  = match lastSelection actions with
    | Some file => file_name file
    | None => ""
    end
  ∧ convertedText c
    = match lastSelection actions with
      | Some file =>
          match convertExcelToText file with
          | Fulfilled text => text
          | Rejected _ => ""
          end
      | None => ""
      end
  ∧ (∀ d, snd (downloadTextFile c) = Some d →
       ∃ file,
         lastSelection actions = Some file
         ∧ convertExcelToText file = Fulfilled (blob d)
         ∧ download d = removeExtension (file_name file) +:+ ".txt").
Proof.
  cbv zeta.
  destruct (run_holdsSelection actions initial None initial_holdsSelection)
    as (Hname & Htext & _).
  fold (lastSelection actions) in Hname, Htext.
  split; [exact Hname |]. split; [exact Htext |].
  intros d Hd. unfold downloadTextFile in Hd.
  destruct (truthy (convertedText (run initial actions))) eqn:Ht;
    simpl in Hd; [| done].
  injection Hd as <-. cbn [blob download].
  apply truthy_true in Ht. rewrite Hname.
  destruct (lastSelection actions) as [file |]; [| done].
  exists file. split; [done |]. split; [| done].
  rewrite Htext in Ht |- *. cbn [textOfSelection] in Ht |- *.
  by destruct (convertExcelToText file).
Qed.

Lemma X8_report_witness :
  ∃ file,
    lastSelection
      [SelectFile (Some [renamed_file]); Clear;
       SelectFile (Some [unreadable_file]);
       SelectFile (Some [readable_file; unreadable_file]); Copy false]
    = Some file
    ∧ convertExcelToText (P := demo) file
      = Fulfilled ("===== Sheet1 =====" +:+ LF +:+ "PK" +:+ LF +:+ LF)
    ∧ "Report.txt" = removeExtension (file_name file) +:+ ".txt".
Proof.
  apply (proj2 (proj2
           (X8_download_is_the_conversion_of_the_last_selected_file
              (P := demo)
              [SelectFile (Some [renamed_file]); Clear;
               SelectFile (Some [unreadable_file]);
               SelectFile (Some [readable_file; unreadable_file]);
               Copy false]))
           {| download := "Report.txt";
              blob := "===== Sheet1 =====" +:+ LF +:+ "PK" +:+ LF +:+ LF;
              blob_type := "text/plain;charset=utf-8" |}).
  reflexivity.
Defined.

(** X9: in a session driven from the initial state by file selections,
    copies, downloads and clears, each run to its end, an error that is shown
    is the message of a failed copy, or the message with which the
    conversion of the file selected last (the first file of the last
    selection that was not empty, with no clear after it) was rejected, and
    in that case no text is held. *)
Theorem X9_error_is_copy_failure_or_rejection_of_the_last_selected_file
    `{P : Platform} (actions : list Action) :
  let c := run initial actions in
  errorMessage c = ""
  ∨ errorMessage c = "复制到剪贴板失败"
  ∨ ∃ file error,
      lastSelection actions = Some file
      ∧ convertExcelToText file = Rejected error
      ∧ errorMessage c = errorText error
      ∧ convertedText c = "".
Proof.
  cbv zeta.
  destruct (run_holdsSelection actions initial None initial_holdsSelection)
    as (_ & _ & Herror).
  exact Herror.
Qed.

(** X10: what a file selection leaves behind depends on the first selected
    file and on the file input only: further files of the selection are not
    read, and the text, file name, error and processing flag of the session
    before it play no part. *)
Theorem X10_selection_depends_on_first_file_and_input_only
    `{P : Platform} (c1 c2 : Component) (file : File)
    (others1 others2 : list File) :
  fileInput c1 = fileInput c2 →
  handleFileUpload (Some (file :: others1)) c1
  = handleFileUpload (Some (file :: others2)) c2.
Proof.
  intros Hinput.
  destruct (convertExcelToText file) as [text | error] eqn:Hfile.
  - rewrite !(handleFileUpload_fulfilled _ _ _ _ Hfile). by rewrite Hinput.
  - rewrite !(handleFileUpload_rejected _ _ _ _ Hfile). by rewrite Hinput.
Qed.

Lemma X10_other_files_witness :
  handleFileUpload (P := demo) (Some [readable_file; unreadable_file])
    showing_both
  = handleFileUpload (P := demo) (Some [readable_file]) initial.
Proof.
  apply (X10_selection_depends_on_first_file_and_input_only (P := demo)).
  reflexivity.
Defined.

(** X11: selecting the same files a second time, once the first selection
    has run to its end, changes nothing more. *)
Theorem X11_selecting_again_changes_nothing
    `{P : Platform} (files : option (list File)) (c : Component) :
  handleFileUpload files (handleFileUpload files c)
  = handleFileUpload files c.
Proof.
  destruct files as [[|file others]|]; [done | | done].
  destruct (convertExcelToText file) as [text | error] eqn:Hfile.
  - rewrite !(handleFileUpload_fulfilled _ _ _ _ Hfile). simpl.
    by destruct (fileInput c).
  - by rewrite !(handleFileUpload_rejected _ _ _ _ Hfile).
Qed.

(** X12: the file input is emptied (when it is mounted) exactly when the
    conversion is fulfilled, and is left as it is when the conversion is
    rejected; a fulfilled conversion leaves the converted text, the file's
    name, no error and the processing flag off. *)
Theorem X12_fulfilled_selection_stores_text_and_resets_input
    `{P : Platform} (c : Component) (file : File) (others : list File) :
  fileInput (handleFileUpload (Some (file :: others)) c)
  = match convertExcelToText file with
    | Fulfilled _ => (λ _, "") <$> fileInput c
    | Rejected _ => fileInput c
    end
  ∧ (∀ text, convertExcelToText file = Fulfilled text →
       handleFileUpload (Some (file :: others)) c
       = {| fileInput := (λ _, "") <$> fileInput c;
            convertedText := text; isProcessing := false;
            fileName := file_name file; errorMessage := "" |}).
Proof.
  split.
  - destruct (convertExcelToText file) as [text | error] eqn:Hfile.
    + rewrite (handleFileUpload_fulfilled _ _ _ _ Hfile). simpl.
      by destruct (fileInput c).
    + by rewrite (handleFileUpload_rejected _ _ _ _ Hfile).
  - intros text Hfile. rewrite (handleFileUpload_fulfilled _ _ _ _ Hfile).
    by destruct (fileInput c).
Qed.

Lemma X12_readable_file_witness :
  handleFileUpload (P := demo) (Some [readable_file]) processing
  = {| fileInput := Some "";
       convertedText := "===== Sheet1 =====" +:+ LF +:+ "PK" +:+ LF +:+ LF;
       isProcessing := false; fileName := "Report.xlsx";
       errorMessage := "" |}.
Proof.
  apply (proj2 (X12_fulfilled_selection_stores_text_and_resets_input
                  (P := demo) processing readable_file [])).
  reflexivity.
Defined.

(** X13: the name of a download is a beginning of the session's file name
    followed by [.txt], and what is cut from the file name is nothing or one
    match of the extension pattern; the content of a download is never
    empty. *)
Theorem X13_download_name_is_prefix_of_file_name
    (c : Component) (d : Download) :
  snd (downloadTextFile c) = Some d →
  ∃ stem ext,
    download d = stem +:+ ".txt"
    ∧ fileName c = stem +:+ ext
    ∧ (ext = "" ∨ isExtension ext = true)
    ∧ blob d ≠ "".
Proof.
  unfold downloadTextFile.
  destruct (truthy (convertedText c)) eqn:Ht; simpl; [| done].
  intros [= <-]. destruct (removeExtension_prefix (fileName c))
    as (ext & Hname & Hext).
  exists (removeExtension (fileName c)), ext. cbn [download blob].
  repeat split; [done | done | by apply truthy_true].
Qed.

Lemma X13_report_witness :
  ∃ stem ext,
    "Report.txt" = stem +:+ ".txt"
    ∧ "Report.xlsx" = stem +:+ ext
    ∧ (ext = "" ∨ isExtension ext = true)
    ∧ "A" +:+ TAB +:+ "B" +:+ LF ≠ "".
Proof.
  apply (X13_download_name_is_prefix_of_file_name showing_result
           {| download := "Report.txt"; blob := "A" +:+ TAB +:+ "B" +:+ LF;
              blob_type := "text/plain;charset=utf-8" |}).
  reflexivity.
Defined.

(** X14: the extension pattern leaves a file name whole when the name has no
    dot and when the name ends with a dot, and it removes all of a name that
    is itself one match (a dot and a run without dot or slash), so that such
    a file is downloaded as [.txt]. *)
Theorem X14_names_kept_whole_or_removed_whole (c : Component) :
  (∀ name, includes "." name = false → removeExtension name = name)
  ∧ (∀ name, removeExtension (name +:+ ".") = name +:+ ".")
  ∧ (isExtension (fileName c) = true →
     convertedText c ≠ "" →
     download <$> snd (downloadTextFile c) = Some ".txt").
Proof.
  split; [apply removeExtension_no_dot |].
  split; [apply removeExtension_trailing_dot |].
  intros Hext Htext. unfold downloadTextFile.
  apply truthy_true in Htext. rewrite Htext. simpl.
  by rewrite removeExtension_eq, Hext.
Qed.

Lemma X14_dot_names_witness :
  removeExtension "README" = "README"
  ∧ removeExtension "Report." = "Report."
  ∧ download
    <$> snd (downloadTextFile
               {| fileInput := None; convertedText := "x";
                  isProcessing := false; fileName := ".csv";
                  errorMessage := "" |})
    = Some ".txt".
Proof.
  pose proof (X14_names_kept_whole_or_removed_whole
                {| fileInput := None; convertedText := "x";
                   isProcessing := false; fileName := ".csv";
                   errorMessage := "" |}) as (H1 & H2 & H3).
  split; [apply H1; reflexivity |].
  split; [apply (H2 "Report") |].
  apply H3; [reflexivity | discriminate].
Defined.

(** X15: copies, whether they succeed or fail, and downloads, in any number
    and order, leave the text and the file name as they are, so a download
    after them is the same as a download before them. *)
Theorem X15_copies_and_downloads_keep_the_download
    `{P : Platform} (c : Component) (actions : list Action) :
  Forall (λ a, a = DownloadText ∨ ∃ ok, a = Copy ok) actions →
  convertedText (run c actions) = convertedText c
  ∧ fileName (run c actions) = fileName c
  ∧ snd (downloadTextFile (run c actions)) = snd (downloadTextFile c).
Proof.
  intros Hall.
  assert (convertedText (run c actions) = convertedText c
          ∧ fileName (run c actions) = fileName c) as [Ht Hn].
  { revert c. induction Hall as [|a actions Ha _ IH]; intros c; [done |].
    cbn [run fold_left]. destruct (IH (step c a)) as [Ht Hn].
    destruct (step_copy_or_download c a Ha) as [Ht' Hn'].
    unfold run in Ht, Hn. by rewrite Ht, Hn. }
  repeat split; [done | done |].
  unfold downloadTextFile. rewrite Ht, Hn.
  by destruct (truthy (convertedText c)).
Qed.

Lemma X15_copy_download_witness :
  convertedText
    (run (P := demo) showing_result [Copy false; DownloadText; Copy true])
  = "A" +:+ TAB +:+ "B" +:+ LF
  ∧ fileName
      (run (P := demo) showing_result [Copy false; DownloadText; Copy true])
    = "Report.xlsx"
  ∧ snd (downloadTextFile
           (run (P := demo) showing_result
              [Copy false; DownloadText; Copy true]))
    = snd (downloadTextFile showing_result).
Proof.
  apply (X15_copies_and_downloads_keep_the_download (P := demo)
           showing_result [Copy false; DownloadText; Copy true]).
  constructor; [right; by exists false |].
  constructor; [by left |].
  constructor; [right; by exists true |].
  constructor.
Defined.

(** * Actions that fall between the start and the end of a conversion *)

(** X16: when the result of an earlier file is still shown and a new file has
    been selected but its conversion has not ended yet, a download carries
    the earlier text under the name of the new file. *)
Theorem X16_download_during_conversion_mixes_name_and_text
    (c : Component) (file : File) :
  convertedText c ≠ "" →
  snd (downloadTextFile (handleFileUpload_before_await file c))
  = Some {| download := removeExtension (file_name file) +:+ ".txt";
            blob := convertedText c;
            blob_type := "text/plain;charset=utf-8" |}.
Proof.
  intros Ht. apply truthy_true in Ht. unfold downloadTextFile.
  cbn [handleFileUpload_before_await set_isProcessing set_errorMessage
       set_fileName convertedText fileName].
  by rewrite Ht.
Qed.

Lemma X16_renamed_witness :
  snd (downloadTextFile
         (handleFileUpload_before_await unreadable_file showing_result))
  = Some {| download := "gone.txt"; blob := "A" +:+ TAB +:+ "B" +:+ LF;
            blob_type := "text/plain;charset=utf-8" |}.
Proof.
  apply (X16_download_during_conversion_mixes_name_and_text
           showing_result unreadable_file).
  discriminate.
Defined.

(** X17: a clear that falls between the start of a conversion and its end
    does not stop the conversion: when it is fulfilled its text is stored,
    while the file name stays empty, so a download of a non-empty text is
    then named [.txt]; the processing flag, which the clear leaves on, is
    switched off by the end of the conversion. *)
Theorem X17_clear_during_conversion_loses_the_file_name
    (c : Component) (file : File) (text : string) :
  let started := handleFileUpload_before_await file c in
  let ended :=
    handleFileUpload_after_await (Fulfilled text) (clearResult started) in
  isProcessing (clearResult started) = true
  ∧ convertedText ended = text
  ∧ fileName ended = ""
  ∧ errorMessage ended = ""
  ∧ isProcessing ended = false
  ∧ (text ≠ "" → download <$> snd (downloadTextFile ended) = Some ".txt").
Proof.
  cbv zeta. repeat split. intros Ht. apply truthy_true in Ht.
  unfold downloadTextFile.
  cbn [handleFileUpload_after_await handleFileUpload_before_await clearResult
       set_isProcessing set_errorMessage set_fileName set_convertedText
       set_fileInput_value convertedText fileName].
  by rewrite Ht.
Qed.

Lemma X17_clear_witness :
  download
  <$> snd (downloadTextFile
             (handleFileUpload_after_await (Fulfilled "x")
                (clearResult
                   (handleFileUpload_before_await readable_file initial))))
  = Some ".txt".
Proof.
  apply (X17_clear_during_conversion_loses_the_file_name
           initial readable_file "x").
  discriminate.
Defined.
